(** * A shallow embedding of [internal/upload/pulp/pulp.go]

    The package is a thin wrapper around the generated Pulp API client.
    Every exported method issues at most one remote request, turns a
    failure into a formatted error value and hands the interesting part
    of the answer back to the caller.

    The embedding keeps that shape.  Pure Go code becomes Rocq functions,
    and the three kinds of effect the package has (the local file system,
    the requests executed by the generated client, the logger) become the
    events of a small free monad [Prog], interpreted by an arbitrary
    handler.  Statements quantified over "every handler" are statements
    about every possible file system and every possible server (or test
    double), and the recorded trace of events says which requests were
    issued and with which payload. *)

From Stdlib Require Import ZArith Ascii.
From stdpp Require Import gmap strings list fin_maps.

Open Scope string_scope.

(** ** Go strings and errors *)

(** The test of a Go string against the empty string. *)
Definition is_empty (s : string) : bool :=
  match s with
  | EmptyString => true
  | String _ _ => false
  end.

(** Package [os]: open files, and the error [os.Open] reports. *)
Module os.

(** An open file, known by its descriptor. *)
Record File : Type := { Fd : Z }.

(** [*fs.PathError]: the operation, the path and the cause. *)
Record PathError : Type := { Op : string; Path : string; Err : string }.

End os.

(** The values of Go's [error] interface that reach this package.
    - [PathError] is the only kind of error [os.Open] returns;
    - [APIError] stands for whatever error the generated client returns
      from [Execute]; the package only ever calls [Error()] on it;
    - [errorString] is what [fmt.Errorf] builds when the format has no
      wrapping verb. *)
Inductive error : Type :=
| PathError (e : os.PathError)
| APIError (msg : string)
| errorString (s : string).

(** [err.Error()]. *)
Definition Error (e : error) : string :=
  match e with
  | PathError e => os.Op e +:+ " " +:+ os.Path e +:+ ": " +:+ os.Err e
  | APIError msg => msg
  | errorString s => s
  end.

(** ** Package [fmt], as far as this package uses it *)

Module fmt.

Section Formatting.

(** [strconv.Quote], which implements the [%q] verb on strings.  It
    belongs to the Go runtime library and stays a parameter. *)
Variable Quote : string -> string.

Definition percent : Ascii.ascii := "%"%char.

(** What [fmt] prints for operands no verb consumed. *)
Fixpoint extra_args (args : list string) : string :=
  match args with
  | [] => EmptyString
  | [a] => "string=" +:+ a
  | a :: rest => "string=" +:+ a +:+ ", " +:+ extra_args rest
  end.

(** One verb applied to one string operand.  The package uses [%s] and
    [%q] only; any other letter is rendered the way [fmt] renders a verb
    it does not accept for the operand. *)
Definition verb (v : Ascii.ascii) (arg : string) : string :=
  if Ascii.eqb v "s"%char then arg
  else if Ascii.eqb v "q"%char then Quote arg
  else "%!" +:+ String v ("(string=" +:+ arg +:+ ")").

(** [fmt.Sprintf] restricted to string operands: the format is copied
    until a [%]; [%%] prints a percent sign, any other verb consumes the
    next operand. *)
Fixpoint Sprintf (format : string) (args : list string) : string :=
  match format with
  | EmptyString =>
      match args with
      | [] => EmptyString
      | _ :: _ => "%!(EXTRA " +:+ extra_args args +:+ ")"
      end
  | String c rest =>
      if Ascii.eqb c percent then
        match rest with
        | EmptyString => "%!(NOVERB)"
        | String v rest' =>
            if Ascii.eqb v percent then String percent (Sprintf rest' args)
            else
              match args with
              | [] => "%!" +:+ String v ("(MISSING)" +:+ Sprintf rest' [])
              | a :: args' => verb v a +:+ Sprintf rest' args'
              end
        end
      else String c (Sprintf rest args)
  end.

(** [fmt.Errorf] with a format that has no [%w]. *)
Definition Errorf (format : string) (args : list string) : error :=
  errorString (Sprintf format args).

End Formatting.

End fmt.

(** ** Package [context] *)

Module context.

Section Contexts.

Context {Key Val : Type} `{EqDecision Key}.

(** A context is the chain of [WithValue] calls over [Background()]. *)
Inductive Context : Type :=
| Background
| WithValue (parent : Context) (key : Key) (val : Val).

(** [ctx.Value(key)]: the innermost binding of [key], if any. *)
Fixpoint Value (ctx : Context) (key : Key) : option Val :=
  match ctx with
  | Background => None
  | WithValue parent k v =>
      if decide (k = key) then Some v else Value parent key
  end.

End Contexts.

Arguments Context : clear implicits.

End context.

(** ** Packages [io] and [net/http] *)

Module http.

(** [http.Transport{}]: the zero value, nothing is configured. *)
Inductive Transport : Type := ZeroTransport.

Record Client : Type := { Transport_ : option Transport }.

(** A response body is characterised by what reading it to the end
    yields: the bytes delivered, and the error that cut the read short,
    if there was one. *)
Record ReadCloser : Type := { delivered : string; failure : option error }.

Record Response : Type := { Body : ReadCloser }.

End http.

Module io.

(** [io.ReadAll]: the bytes read so far together with the error. *)
Definition ReadAll (r : http.ReadCloser) : string * option error :=
  (http.delivered r, http.failure r).

End io.

(** ** The generated client, [pulpclient]

    Only its types and the accessors the wrapper calls are described;
    what its requests answer is left to the handler of the events
    below. *)

Module pulpclient.

Inductive contextKey : Type :=
| ContextServerIndex
| ContextBasicAuth.

#[global] Instance contextKey_eq_dec : EqDecision contextKey.
Proof. solve_decision. Defined.

Record BasicAuth : Type := { UserName : string; Password : string }.

(** The values the wrapper stores in a request context. *)
Inductive contextValue : Type :=
| IntValue (n : Z)
| BasicAuthValue (auth : BasicAuth).

Record ServerConfiguration : Type := { URL : string }.

Record Configuration : Type :=
  { HTTPClient : option http.Client;
    Servers : list ServerConfiguration }.

Record APIClient : Type := { cfg : Configuration }.

Definition NewAPIClient (c : Configuration) : APIClient := {| cfg := c |}.

(** [NullableString]: a value that may be unset, set to null, or set to
    a string. *)
Record NullableString : Type := { value : option string; isSet : bool }.

(** The Go zero value: not set. *)
Definition zeroNullableString : NullableString :=
  {| value := None; isSet := false |}.

Definition NewNullableString (val : option string) : NullableString :=
  {| value := val; isSet := true |}.

(** How a field of type [NullableString] appears in the JSON body of a
    request: left out when not set, otherwise the value it holds. *)
Inductive jsonField : Type :=
| Omitted
| Null
| Text (s : string).

Definition serialize (v : NullableString) : jsonField :=
  if isSet v then
    match value v with
    | None => Null
    | Some s => Text s
    end
  else Omitted.

(** Request bodies.  The fields listed are those the wrapper writes; all
    others keep their zero value. *)
Record OstreeOstreeRepository : Type :=
  { Repository_Name : string;
    Repository_Description : NullableString }.

Record OstreeImportAll : Type :=
  { ImportAll_Artifact : string;
    ImportAll_RepositoryName : string }.

Definition NewOstreeImportAll (artifact repositoryName : string)
  : OstreeImportAll :=
  {| ImportAll_Artifact := artifact;
     ImportAll_RepositoryName := repositoryName |}.

Record OstreeOstreeDistribution : Type :=
  { Distribution_BasePath : string;
    Distribution_Name : string;
    Distribution_Repository : NullableString }.

Definition NewOstreeOstreeDistribution (basePath name : string)
  : OstreeOstreeDistribution :=
  {| Distribution_BasePath := basePath;
     Distribution_Name := name;
     Distribution_Repository := zeroNullableString |}.

Definition SetRepository (o : OstreeOstreeDistribution) (v : string)
  : OstreeOstreeDistribution :=
  {| Distribution_BasePath := Distribution_BasePath o;
     Distribution_Name := Distribution_Name o;
     Distribution_Repository := NewNullableString (Some v) |}.

(** Response bodies, with the fields the wrapper reads. *)
Record ArtifactResponse : Type :=
  { Artifact_PulpHref : option string }.

Record OstreeOstreeRepositoryResponse : Type :=
  { RepositoryResponse_PulpHref : option string;
    RepositoryResponse_Name : string }.

Record PaginatedostreeOstreeRepositoryResponseList : Type :=
  { List_Count : Z;
    List_Results : list OstreeOstreeRepositoryResponse }.

Record AsyncOperationResponse : Type := { Task : string }.

Record TaskResponse : Type := { Task_State : option string }.

(** The generated getters return the zero value for a field that is not
    there. *)
Definition orZero (field : option string) : string :=
  match field with
  | None => EmptyString
  | Some s => s
  end.

Module ArtifactResponse.
Definition GetPulpHref (o : ArtifactResponse) : string :=
  orZero (Artifact_PulpHref o).
End ArtifactResponse.

Module OstreeOstreeRepositoryResponse.
Definition GetPulpHref (o : OstreeOstreeRepositoryResponse) : string :=
  orZero (RepositoryResponse_PulpHref o).
Definition Name (o : OstreeOstreeRepositoryResponse) : string :=
  RepositoryResponse_Name o.
End OstreeOstreeRepositoryResponse.

Module PaginatedostreeOstreeRepositoryResponseList.
Definition GetCount (o : PaginatedostreeOstreeRepositoryResponseList) : Z :=
  List_Count o.
Definition GetResults (o : PaginatedostreeOstreeRepositoryResponseList)
  : list OstreeOstreeRepositoryResponse :=
  List_Results o.
End PaginatedostreeOstreeRepositoryResponseList.

Module TaskResponse.
Definition GetState (o : TaskResponse) : string :=
  orZero (Task_State o).
End TaskResponse.

(** What [Execute()] hands back.  Go returns a triple (result, response,
    error); the generated client fills in the result exactly when the
    error is nil, and the wrapper reads the result only then, so the two
    cases are kept apart by construction. *)
Inductive Executed (T : Type) : Type :=
| Answered (res : T) (resp : option http.Response)
| Failed (resp : option http.Response) (err : error).

Arguments Answered {T} res resp.
Arguments Failed {T} resp err.

End pulpclient.

Abbreviation Context :=
  (context.Context pulpclient.contextKey pulpclient.contextValue).

(** ** Effects *)

(** One constructor per call that leaves the package.  A request carries
    the client and the context it is issued with and the payload given
    to its builder; its answer type is what [Execute()] returns. *)
Inductive event : Type -> Type :=
| os_Open (name : string) : event (os.File + os.PathError)
| File_Close (fp : os.File) : event unit
| ArtifactsCreate (c : pulpclient.APIClient) (ctx : Context)
    (file : os.File)
  : event (pulpclient.Executed pulpclient.ArtifactResponse)
| RepositoriesOstreeOstreeList (c : pulpclient.APIClient) (ctx : Context)
  : event (pulpclient.Executed
             pulpclient.PaginatedostreeOstreeRepositoryResponseList)
| RepositoriesOstreeOstreeCreate (c : pulpclient.APIClient)
    (ctx : Context) (body : pulpclient.OstreeOstreeRepository)
  : event (pulpclient.Executed pulpclient.OstreeOstreeRepositoryResponse)
| RepositoriesOstreeOstreeImportAll (c : pulpclient.APIClient)
    (ctx : Context) (ostreeOstreeRepositoryHref : string)
    (body : pulpclient.OstreeImportAll)
  : event (pulpclient.Executed pulpclient.AsyncOperationResponse)
| DistributionsOstreeOstreeCreate (c : pulpclient.APIClient)
    (ctx : Context) (body : pulpclient.OstreeOstreeDistribution)
  : event (pulpclient.Executed pulpclient.AsyncOperationResponse)
| TasksRead (c : pulpclient.APIClient) (ctx : Context) (taskHref : string)
  : event (pulpclient.Executed pulpclient.TaskResponse)
| logrus_Errorf (format : string) (args : list string) : event unit.

(** An event with its answer type packed away, for traces. *)
Inductive call : Type :=
| Call {X : Type} (e : event X).

(** Requests sent to the server, as opposed to local effects. *)
Definition is_remote (c : call) : bool :=
  match c with
  | Call (os_Open _) => false
  | Call (File_Close _) => false
  | Call (logrus_Errorf _ _) => false
  | Call _ => true
  end.

(** Programs: return a value, or perform an event and go on with its
    answer. *)
Inductive Prog (A : Type) : Type :=
| Ret (a : A)
| Vis {X : Type} (e : event X) (k : X -> Prog A).

Arguments Ret {A} a.
Arguments Vis {A X} e k.

Fixpoint bind {A B : Type} (p : Prog A) (f : A -> Prog B) : Prog B :=
  match p with
  | Ret a => f a
  | Vis e k => Vis e (fun x => bind (k x) f)
  end.

Definition trigger {X : Type} (e : event X) : Prog X := Vis e Ret.

Declare Scope prog_scope.
Delimit Scope prog_scope with prog.
Bind Scope prog_scope with Prog.

Notation "x <- p ;; q" := (bind p (fun x => q))
  (at level 100, p at next level, right associativity) : prog_scope.

(** The environment: from a world of type [W] it answers every event
    and moves to the next world. *)
Definition handler (W : Type) : Type :=
  forall X : Type, event X -> W -> X * W.

(** What running a program leaves behind. *)
Record outcome (W A : Type) : Type :=
  { returned : A;
    world : W;
    issued : list call }.

Arguments returned {W A} o.
Arguments world {W A} o.
Arguments issued {W A} o.

Fixpoint run {W A : Type} (h : handler W) (p : Prog A) (w : W)
  : outcome W A :=
  match p with
  | Ret a => {| returned := a; world := w; issued := [] |}
  | Vis e k =>
      let (x, w') := h _ e w in
      let o := run h (k x) w' in
      {| returned := returned o;
         world := world o;
         issued := Call e :: issued o |}
  end.

(** ** Package [pulp] *)

Record Client : Type :=
  { client : pulpclient.APIClient;
    ctx : Context }.

Record Credentials : Type :=
  { Username : string;
    Password : string }.

Section Construction.

(** [pulpclient.NewConfiguration()]: the defaults of the generated
    client, whatever they are. *)
Variable NewConfiguration : pulpclient.Configuration.

Definition NewClient (url : string) (creds : option Credentials) : Client :=
  let ctx :=
    context.WithValue context.Background
      pulpclient.ContextServerIndex (pulpclient.IntValue 0) in
  let transport := http.ZeroTransport in
  let httpClient := {| http.Transport_ := Some transport |} in
  let pulpConfig := NewConfiguration in
  let pulpConfig :=
    {| pulpclient.HTTPClient := Some httpClient;
       pulpclient.Servers := pulpclient.Servers pulpConfig |} in
  let pulpConfig :=
    {| pulpclient.HTTPClient := pulpclient.HTTPClient pulpConfig;
       pulpclient.Servers := [ {| pulpclient.URL := url |} ] |} in
  let client := pulpclient.NewAPIClient pulpConfig in
  let ctx :=
    match creds with
    | Some creds =>
        context.WithValue ctx pulpclient.ContextBasicAuth
          (pulpclient.BasicAuthValue
             {| pulpclient.UserName := Username creds;
                pulpclient.Password := Password creds |})
    | None => ctx
    end in
  {| client := client; ctx := ctx |}.

End Construction.

(** [readBody] returns the body of a response as a string and ignores
    errors. *)
Definition readBody (r : option http.Response) : string :=
  match r with
  | None => EmptyString
  | Some r =>
      let (b, err) := io.ReadAll (http.Body r) in
      match err with
      | Some _ => EmptyString
      | None => b
      end
  end.

Definition TaskState : Type := string.

Definition TASK_WAITING : TaskState := "waiting".
Definition TASK_SKIPPED : TaskState := "skipped".
Definition TASK_RUNNING : TaskState := "running".
Definition TASK_COMPLETED : TaskState := "completed".
Definition TASK_FAILED : TaskState := "failed".
Definition TASK_CANCELED : TaskState := "canceled".
Definition TASK_CANCELING : TaskState := "canceling".

(** [make(map[string]string, hint)]: the hint sizes the allocation and
    nothing else. *)
Definition make_map (hint : Z) : gmap string string := ∅.

Module Client.

Import pulpclient.

Section Methods.

Variable Quote : string -> string.

Let Errorf := fmt.Errorf Quote.

(** [UploadFile] uploads the file at the given path and returns the href
    of the new artifact.  The deferred [fp.Close()] runs once the result
    is computed. *)
Definition UploadFile (cl : Client) (path : string)
  : Prog (string * option error) :=
  (opened <- trigger (os_Open path) ;;
   match opened with
   | inr err => Ret (EmptyString, Some (PathError err))
   | inl fp =>
       executed <- trigger (ArtifactsCreate (client cl) (ctx cl) fp) ;;
       let result :=
         match executed with
         | Failed resp err =>
             (EmptyString,
              Some (Errorf "failed to upload file %q: %s (%s)"
                      [path; Error err; readBody resp]))
         | Answered res _ => (ArtifactResponse.GetPulpHref res, None)
         end in
       _ <- trigger (File_Close fp) ;;
       Ret result
   end)%prog.

(** [ListOSTreeRepositories] returns a map (repository name -> pulp
    href) of existing ostree repositories; [None] is the nil map. *)
Definition ListOSTreeRepositories (cl : Client)
  : Prog (option (gmap string string) * option error) :=
  (executed <- trigger (RepositoriesOstreeOstreeList (client cl) (ctx cl)) ;;
   match executed with
   | Failed resp err =>
       Ret (None,
            Some (Errorf "repository list request returned an error: %s (%s)"
                    [Error err; readBody resp]))
   | Answered list _ =>
       let repos :=
         make_map (PaginatedostreeOstreeRepositoryResponseList.GetCount list) in
       let repos :=
         foldl
           (fun (repos : gmap string string) repo =>
              let name := OstreeOstreeRepositoryResponse.Name repo in
              let href := OstreeOstreeRepositoryResponse.GetPulpHref repo in
              <[name := href]> repos)
           repos
           (PaginatedostreeOstreeRepositoryResponseList.GetResults list) in
       Ret (Some repos, None)
   end)%prog.

(** [CreateOSTreeRepository] creates a new ostree repository with a name
    and description and returns the pulp href. *)
Definition CreateOSTreeRepository (cl : Client) (name description : string)
  : Prog (string * option error) :=
  (let repo :=
     {| Repository_Name := name;
        Repository_Description := zeroNullableString |} in
   let repo :=
     if negb (is_empty description) then
       {| Repository_Name := Repository_Name repo;
          Repository_Description := NewNullableString (Some description) |}
     else repo in
   executed <-
     trigger (RepositoriesOstreeOstreeCreate (client cl) (ctx cl) repo) ;;
   match executed with
   | Failed resp err =>
       Ret (EmptyString,
            Some (Errorf "repository creation failed: %s (%s)"
                    [Error err; readBody resp]))
   | Answered result _ =>
       Ret (OstreeOstreeRepositoryResponse.GetPulpHref result, None)
   end)%prog.

(** [ImportCommit] imports a commit that has already been uploaded to a
    given repository.  The returned value is the href for the import
    task.  Commit archives always use the repo name "repo". *)
Definition ImportCommit (cl : Client) (commitHref repoHref : string)
  : Prog (string * option error) :=
  (let importOptions := NewOstreeImportAll commitHref "repo" in
   executed <-
     trigger (RepositoriesOstreeOstreeImportAll (client cl) (ctx cl)
                repoHref importOptions) ;;
   match executed with
   | Failed resp err =>
       Ret (EmptyString,
            Some (Errorf "ostree commit import failed: %s (%s)"
                    [Error err; readBody resp]))
   | Answered result _ => Ret (Task result, None)
   end)%prog.

(** [DistributeOSTreeRepo] makes an ostree repository available for
    download.  The returned value is the href for the distribute task. *)
Definition DistributeOSTreeRepo (cl : Client)
    (basePath name repoHref : string)
  : Prog (string * option error) :=
  (let dist := NewOstreeOstreeDistribution basePath name in
   let dist := SetRepository dist repoHref in
   executed <-
     trigger (DistributionsOstreeOstreeCreate (client cl) (ctx cl) dist) ;;
   match executed with
   | Failed resp err =>
       Ret (EmptyString,
            Some (Errorf "error distributing ostree repository: %s (%s)"
                    [Error err; readBody resp]))
   | Answered res _ => Ret (Task res, None)
   end)%prog.

(** [TaskState] returns the state of a given task. *)
Definition TaskState (cl : Client) (task : string)
  : Prog (TaskState * option error) :=
  (executed <- trigger (TasksRead (client cl) (ctx cl) task) ;;
   match executed with
   | Failed resp err =>
       Ret (EmptyString,
            Some (Errorf "error reading task %s: %s (%s)"
                    [task; Error err; readBody resp]))
   | Answered res _ =>
       let state := TaskResponse.GetState res in
       if is_empty state then
         Ret (EmptyString,
              Some (Errorf "got empty task state for %s" [task]))
       else Ret (state, None)
   end)%prog.

(** [TaskWaitingOrRunning] returns true if the given task is in the
    running state.  Errors are ignored and return false. *)
Definition TaskWaitingOrRunning (cl : Client) (task : string) : Prog bool :=
  (queried <- TaskState cl task ;;
   let (state, err) := queried in
   match err with
   | Some err =>
       _ <- trigger (logrus_Errorf "failed to get task state: %s"
                       [Error err]) ;;
       Ret false
   | None => Ret (String.eqb state TASK_RUNNING || String.eqb state TASK_WAITING)
   end)%prog.

End Methods.

End Client.

(** ** The error taxonomy of the specification

    The package has no error types of its own: it returns the error of
    [os.Open] as it is and formats every other failure with
    [fmt.Errorf].  The three kinds of the specification are recognised
    by the shape of the value. *)

(** A local file-system failure. *)
Definition IOError (e : os.PathError) : error := PathError e.

(** A failed request: what was attempted, the message of the underlying
    error, and the body of the response. *)
Definition RemoteError (operation underlyingMessage responseBody : string)
  : error :=
  errorString
    (operation +:+ ": " +:+ underlyingMessage +:+ " (" +:+ responseBody +:+ ")").

(** A task whose state came back empty. *)
Definition EmptyStateError (task : string) : error :=
  errorString ("got empty task state for " +:+ task).

(** The seven states the package names. *)
Definition known_states : list TaskState :=
  [ TASK_WAITING; TASK_SKIPPED; TASK_RUNNING; TASK_COMPLETED;
    TASK_FAILED; TASK_CANCELED; TASK_CANCELING ].

(** What the handler [h] answers to [e] in world [w], and the world it
    moves to. *)
Definition answer {W X : Type} (h : handler W) (e : event X) (w : W) : X :=
  fst (h X e w).

Definition after {W X : Type} (h : handler W) (e : event X) (w : W) : W :=
  snd (h X e w).

(** The requests among the events of an outcome, in the order they were
    sent. *)
Definition requests {W A : Type} (o : outcome W A) : list call :=
  filter (fun c => is_remote c = true) (issued o).

(** The API client and the context a request is issued with; local
    events have none. *)
Definition target (c : call) : option (pulpclient.APIClient * Context) :=
  match c with
  | Call (ArtifactsCreate api ctx _) => Some (api, ctx)
  | Call (RepositoriesOstreeOstreeList api ctx) => Some (api, ctx)
  | Call (RepositoriesOstreeOstreeCreate api ctx _) => Some (api, ctx)
  | Call (RepositoriesOstreeOstreeImportAll api ctx _ _) => Some (api, ctx)
  | Call (DistributionsOstreeOstreeCreate api ctx _) => Some (api, ctx)
  | Call (TasksRead api ctx _) => Some (api, ctx)
  | Call _ => None
  end.

(** Where a request goes and as whom: the servers its client knows, the
    server index and the basic-auth data bound in its context. *)
Definition endpoint (c : call)
  : option (list pulpclient.ServerConfiguration
            * option pulpclient.contextValue
            * option pulpclient.contextValue) :=
  match target c with
  | Some (api, ctx) =>
      Some (pulpclient.Servers (pulpclient.cfg api),
            context.Value ctx pulpclient.ContextServerIndex,
            context.Value ctx pulpclient.ContextBasicAuth)
  | None => None
  end.

(** The two ways the local file can fail an upload.  It does not open;
    or it opens and the upload then breaks off on reading it, which the
    request reports as the path error of the read, without a response
    (a directory opens and cannot be read, for one). *)
Definition cannot_open {W : Type} (h : handler W) (w : W) (path : string)
  : Prop :=
  exists e, answer h (os_Open path) w = inr e.

Definition cannot_read {W : Type} (h : handler W) (w : W) (cl : Client)
    (path : string) : Prop :=
  exists fp e,
    answer h (os_Open path) w = inl fp
    /\ answer h (ArtifactsCreate (client cl) (ctx cl) fp)
         (after h (os_Open path) w)
       = pulpclient.Failed None (PathError e)
    /\ os.Op e = "read".

(** ** A scripted environment

    A file system and a server that answer from a fixed script and keep
    the lines handed to the logger. *)

Module Scripted.

Import pulpclient.

Record Script : Type :=
  { files : string -> os.File + os.PathError;
    artifact : Executed ArtifactResponse;
    repositories : Executed PaginatedostreeOstreeRepositoryResponseList;
    created : Executed OstreeOstreeRepositoryResponse;
    imported : Executed AsyncOperationResponse;
    distributed : Executed AsyncOperationResponse;
    tasks : string -> Executed TaskResponse }.

(** A quoting function good enough for plain file names. *)
Definition quote (s : string) : string :=
  let q := String (ascii_of_nat 34) EmptyString in
  q +:+ s +:+ q.

Definition serve (s : Script) : handler (list string) :=
  fun X e =>
    match e in event X return list string -> X * list string with
    | os_Open name => fun log => (files s name, log)
    | File_Close _ => fun log => (tt, log)
    | ArtifactsCreate _ _ _ => fun log => (artifact s, log)
    | RepositoriesOstreeOstreeList _ _ => fun log => (repositories s, log)
    | RepositoriesOstreeOstreeCreate _ _ _ => fun log => (created s, log)
    | RepositoriesOstreeOstreeImportAll _ _ _ _ => fun log => (imported s, log)
    | DistributionsOstreeOstreeCreate _ _ _ => fun log => (distributed s, log)
    | TasksRead _ _ task => fun log => (tasks s task, log)
    | logrus_Errorf format args =>
        fun log => (tt, (log ++ [fmt.Sprintf quote format args])%list)
    end.

Definition gone : error := APIError "connection refused".

Definition noFile (name : string) : os.File + os.PathError :=
  inr {| os.Op := "open"; os.Path := name;
         os.Err := "no such file or directory" |}.

(** Nothing works: no file opens and every request fails without a
    response. *)
Definition down : Script :=
  {| files := noFile;
     artifact := Failed None gone;
     repositories := Failed None gone;
     created := Failed None gone;
     imported := Failed None gone;
     distributed := Failed None gone;
     tasks := fun _ => Failed None gone |}.

Definition ok : option http.Response :=
  Some {| http.Body := {| http.delivered := EmptyString;
                          http.failure := None |} |}.

Definition fedora : OstreeOstreeRepositoryResponse :=
  {| RepositoryResponse_PulpHref := Some "/pulp/api/v3/repositories/ostree/ostree/1/";
     RepositoryResponse_Name := "fedora-40" |}.

Definition rawhide : OstreeOstreeRepositoryResponse :=
  {| RepositoryResponse_PulpHref := Some "/pulp/api/v3/repositories/ostree/ostree/2/";
     RepositoryResponse_Name := "rawhide" |}.

(** A server in good health; every task it knows is in state [state]. *)
Definition up (state : option string) : Script :=
  {| files := fun _ => inl {| os.Fd := 3 |};
     artifact :=
       Answered {| Artifact_PulpHref := Some "/pulp/api/v3/artifacts/1/" |} ok;
     repositories :=
       Answered {| List_Count := 2; List_Results := [fedora; rawhide] |} ok;
     created := Answered fedora ok;
     imported := Answered {| Task := "/pulp/api/v3/tasks/1/" |} ok;
     distributed := Answered {| Task := "/pulp/api/v3/tasks/2/" |} ok;
     tasks := fun _ => Answered {| Task_State := state |} ok |}.

(** The same server, except that the artifact it creates comes back
    without an href. *)
Definition hrefless : Script :=
  {| files := files (up None);
     artifact := Answered {| Artifact_PulpHref := None |} ok;
     repositories := repositories (up None);
     created := created (up None);
     imported := imported (up None);
     distributed := distributed (up None);
     tasks := tasks (up None) |}.

(** A server that turns every request down, answering with the given
    body. *)
Definition refusing (body : http.ReadCloser) : Script :=
  let resp := Some {| http.Body := body |} in
  let err := APIError "400 Bad Request" in
  {| files := fun _ => inl {| os.Fd := 3 |};
     artifact := Failed resp err;
     repositories := Failed resp err;
     created := Failed resp err;
     imported := Failed resp err;
     distributed := Failed resp err;
     tasks := fun _ => Failed resp err |}.

(** A body read to the end, and one whose read breaks off. *)
Definition whole : http.ReadCloser :=
  {| http.delivered := "name already in use"; http.failure := None |}.

Definition broken : http.ReadCloser :=
  {| http.delivered := "name alre";
     http.failure := Some (APIError "unexpected EOF") |}.

(** A repository that bears the name of [fedora] and lives elsewhere. *)
Definition fedora_again : OstreeOstreeRepositoryResponse :=
  {| RepositoryResponse_PulpHref := Some "/pulp/api/v3/repositories/ostree/ostree/3/";
     RepositoryResponse_Name := "fedora-40" |}.

(** The server of [up], listing a name twice and miscounting. *)
Definition relisting : Script :=
  {| files := files (up None);
     artifact := artifact (up None);
     repositories :=
       Answered {| List_Count := 7;
                   List_Results := [fedora; rawhide; fedora_again] |} ok;
     created := created (up None);
     imported := imported (up None);
     distributed := distributed (up None);
     tasks := tasks (up None) |}.

(** The server of [up] again, but every path is a directory: it opens,
    and the upload fails on the first read. *)
Definition directory (name : string) : error :=
  PathError {| os.Op := "read"; os.Path := name;
               os.Err := "is a directory" |}.

Definition unreadable (name : string) : Script :=
  {| files := files (up None);
     artifact := Failed None (directory name);
     repositories := repositories (up None);
     created := created (up None);
     imported := imported (up None);
     distributed := distributed (up None);
     tasks := tasks (up None) |}.

Definition local : Client :=
  {| client := {| cfg := {| HTTPClient := None; Servers := [] |} |};
     ctx := context.Background |}.

End Scripted.


(** ** Strings and formats *)

Lemma append_nil_l (t : string) : EmptyString +:+ t = t.
Proof. reflexivity. Qed.

Lemma append_cons (c : Ascii.ascii) (s t : string) :
  String c s +:+ t = String c (s +:+ t).
Proof. reflexivity. Qed.

Lemma append_nil_r (s : string) : s +:+ EmptyString = s.
Proof.
  induction s as [|c s IH]; [reflexivity|].
  rewrite append_cons. f_equal. exact IH.
Qed.

Lemma append_assoc (s t u : string) : (s +:+ t) +:+ u = s +:+ (t +:+ u).
Proof.
  induction s as [|c s IH]; [reflexivity|].
  rewrite !append_cons. f_equal. exact IH.
Qed.

Lemma is_empty_true (s : string) : is_empty s = true <-> s = EmptyString.
Proof. destruct s; cbn; split; congruence. Qed.

Lemma is_empty_false (s : string) : is_empty s = false <-> s <> EmptyString.
Proof. destruct s; cbn; split; congruence. Qed.

(** Formats are literals, so [Sprintf] computes; what is left is to
    bring the concatenations on both sides into the same shape. *)
Ltac format :=
  unfold fmt.Errorf, RemoteError, EmptyStateError; cbn;
  repeat (rewrite ?append_assoc, ?append_cons, ?append_nil_l, ?append_nil_r;
          cbn);
  reflexivity.

Section Formats.

Variable Quote : string -> string.

Lemma Errorf_upload (path msg body : string) :
  fmt.Errorf Quote "failed to upload file %q: %s (%s)" [path; msg; body]
  = RemoteError ("failed to upload file " +:+ Quote path) msg body.
Proof. format. Qed.

Lemma Errorf_list (msg body : string) :
  fmt.Errorf Quote "repository list request returned an error: %s (%s)"
    [msg; body]
  = RemoteError "repository list request returned an error" msg body.
Proof. format. Qed.

Lemma Errorf_create (msg body : string) :
  fmt.Errorf Quote "repository creation failed: %s (%s)" [msg; body]
  = RemoteError "repository creation failed" msg body.
Proof. format. Qed.

Lemma Errorf_import (msg body : string) :
  fmt.Errorf Quote "ostree commit import failed: %s (%s)" [msg; body]
  = RemoteError "ostree commit import failed" msg body.
Proof. format. Qed.

Lemma Errorf_distribute (msg body : string) :
  fmt.Errorf Quote "error distributing ostree repository: %s (%s)"
    [msg; body]
  = RemoteError "error distributing ostree repository" msg body.
Proof. format. Qed.

Lemma Errorf_task (task msg body : string) :
  fmt.Errorf Quote "error reading task %s: %s (%s)" [task; msg; body]
  = RemoteError ("error reading task " +:+ task) msg body.
Proof. format. Qed.

Lemma Errorf_empty_state (task : string) :
  fmt.Errorf Quote "got empty task state for %s" [task]
  = EmptyStateError task.
Proof. format. Qed.

End Formats.

(** ** Running the methods

    Each method is characterised once, for an arbitrary environment:
    what it returns, the world it leaves and the events it issued, in
    terms of what the environment answers. *)

Section Runs.

Import pulpclient.

Variable Quote : string -> string.
Context {W : Type}.
Variable h : handler W.

Lemma run_Vis {A X : Type} (e : event X) (k : X -> Prog A) (w : W) :
  run h (Vis e k) w
  = let o := run h (k (answer h e w)) (after h e w) in
    {| returned := returned o; world := world o;
       issued := Call e :: issued o |}.
Proof.
  cbn. unfold answer, after. destruct (h X e w) as [x w']. reflexivity.
Qed.

Lemma run_bind {A B : Type} (p : Prog A) (f : A -> Prog B) (w : W) :
  run h (bind p f) w
  = let o := run h p w in
    let o' := run h (f (returned o)) (world o) in
    {| returned := returned o'; world := world o';
       issued := (issued o ++ issued o')%list |}.
Proof.
  revert w. induction p as [a | X e k IH]; intros w.
  - cbn. destruct (run h (f a) w); reflexivity.
  - change (bind (Vis e k) f) with (Vis e (fun x => bind (k x) f)).
    rewrite !run_Vis. cbn zeta. rewrite IH. reflexivity.
Qed.

Lemma run_UploadFile (cl : Client) (path : string) (w : W) :
  run h (Client.UploadFile Quote cl path) w
  = match answer h (os_Open path) w with
    | inr err =>
        {| returned := (EmptyString, Some (IOError err));
           world := after h (os_Open path) w;
           issued := [Call (os_Open path)] |}
    | inl fp =>
        let w1 := after h (os_Open path) w in
        let create := ArtifactsCreate (client cl) (ctx cl) fp in
        let w2 := after h create w1 in
        {| returned :=
             match answer h create w1 with
             | Failed resp err =>
                 (EmptyString,
                  Some (RemoteError ("failed to upload file " +:+ Quote path)
                          (Error err) (readBody resp)))
             | Answered res _ => (ArtifactResponse.GetPulpHref res, None)
             end;
           world := after h (File_Close fp) w2;
           issued := [Call (os_Open path); Call create;
                      Call (File_Close fp)] |}
    end.
Proof.
  unfold Client.UploadFile, trigger. cbn [bind]. rewrite run_Vis.
  destruct (answer h (os_Open path) w) as [fp | err]; [|reflexivity].
  cbn zeta. rewrite !run_Vis. cbn.
  destruct (answer h _ _) as [res resp | resp err]; [reflexivity|].
  rewrite Errorf_upload. reflexivity.
Qed.

Lemma run_ListOSTreeRepositories (cl : Client) (w : W) :
  let list := RepositoriesOstreeOstreeList (client cl) (ctx cl) in
  run h (Client.ListOSTreeRepositories Quote cl) w
  = {| returned :=
         match answer h list w with
         | Failed resp err =>
             (None,
              Some (RemoteError "repository list request returned an error"
                      (Error err) (readBody resp)))
         | Answered res _ =>
             (Some
                (foldl
                   (fun (repos : gmap string string) repo =>
                      <[OstreeOstreeRepositoryResponse.Name repo :=
                          OstreeOstreeRepositoryResponse.GetPulpHref repo]>
                        repos)
                   ∅
                   (PaginatedostreeOstreeRepositoryResponseList.GetResults
                      res)),
              None)
         end;
       world := after h list w;
       issued := [Call list] |}.
Proof.
  unfold Client.ListOSTreeRepositories, trigger. cbn [bind]. cbn zeta.
  rewrite run_Vis.
  destruct (answer h _ _) as [res resp | resp err]; [reflexivity|].
  cbn. rewrite Errorf_list. reflexivity.
Qed.

Lemma run_CreateOSTreeRepository (cl : Client) (name description : string)
    (w : W) :
  let create :=
    RepositoriesOstreeOstreeCreate (client cl) (ctx cl)
      {| Repository_Name := name;
         Repository_Description :=
           if is_empty description then zeroNullableString
           else NewNullableString (Some description) |} in
  run h (Client.CreateOSTreeRepository Quote cl name description) w
  = {| returned :=
         match answer h create w with
         | Failed resp err =>
             (EmptyString,
              Some (RemoteError "repository creation failed"
                      (Error err) (readBody resp)))
         | Answered result _ =>
             (OstreeOstreeRepositoryResponse.GetPulpHref result, None)
         end;
       world := after h create w;
       issued := [Call create] |}.
Proof.
  unfold Client.CreateOSTreeRepository, trigger. cbn [bind]. cbn zeta.
  destruct (is_empty description); cbn [negb Repository_Name];
    rewrite run_Vis;
    (destruct (answer h _ _) as [res resp | resp err]; [reflexivity|]);
    cbn; rewrite Errorf_create; reflexivity.
Qed.

Lemma run_ImportCommit (cl : Client) (commitHref repoHref : string) (w : W) :
  let import :=
    RepositoriesOstreeOstreeImportAll (client cl) (ctx cl) repoHref
      {| ImportAll_Artifact := commitHref;
         ImportAll_RepositoryName := "repo" |} in
  run h (Client.ImportCommit Quote cl commitHref repoHref) w
  = {| returned :=
         match answer h import w with
         | Failed resp err =>
             (EmptyString,
              Some (RemoteError "ostree commit import failed"
                      (Error err) (readBody resp)))
         | Answered result _ => (Task result, None)
         end;
       world := after h import w;
       issued := [Call import] |}.
Proof.
  unfold Client.ImportCommit, trigger. cbn [bind]. cbn zeta.
  rewrite run_Vis.
  destruct (answer h _ _) as [res resp | resp err]; [reflexivity|].
  cbn. rewrite Errorf_import. reflexivity.
Qed.

Lemma run_DistributeOSTreeRepo (cl : Client)
    (basePath name repoHref : string) (w : W) :
  let create :=
    DistributionsOstreeOstreeCreate (client cl) (ctx cl)
      {| Distribution_BasePath := basePath;
         Distribution_Name := name;
         Distribution_Repository := NewNullableString (Some repoHref) |} in
  run h (Client.DistributeOSTreeRepo Quote cl basePath name repoHref) w
  = {| returned :=
         match answer h create w with
         | Failed resp err =>
             (EmptyString,
              Some (RemoteError "error distributing ostree repository"
                      (Error err) (readBody resp)))
         | Answered res _ => (Task res, None)
         end;
       world := after h create w;
       issued := [Call create] |}.
Proof.
  unfold Client.DistributeOSTreeRepo, trigger. cbn [bind]. cbn zeta.
  rewrite run_Vis.
  destruct (answer h _ _) as [res resp | resp err]; [reflexivity|].
  cbn. rewrite Errorf_distribute. reflexivity.
Qed.

Lemma run_TaskState (cl : Client) (task : string) (w : W) :
  let read := TasksRead (client cl) (ctx cl) task in
  run h (Client.TaskState Quote cl task) w
  = {| returned :=
         match answer h read w with
         | Failed resp err =>
             (EmptyString,
              Some (RemoteError ("error reading task " +:+ task)
                      (Error err) (readBody resp)))
         | Answered res _ =>
             if is_empty (TaskResponse.GetState res)
             then (EmptyString, Some (EmptyStateError task))
             else (TaskResponse.GetState res, None)
         end;
       world := after h read w;
       issued := [Call read] |}.
Proof.
  unfold Client.TaskState, trigger. cbn [bind]. cbn zeta.
  rewrite run_Vis.
  destruct (answer h _ _) as [res resp | resp err].
  - destruct (is_empty (TaskResponse.GetState res)); cbn;
      rewrite ?Errorf_empty_state; reflexivity.
  - cbn. rewrite Errorf_task. reflexivity.
Qed.

End Runs.

(** ** Filling a map in a loop

    What a [for ... range] loop that stores one entry per element leaves
    in the map. *)

Section Filling.

Context {A : Type}.
Variables (key val : A -> string).

Lemma lookup_foldl_insert (l : list A) (m : gmap string string)
    (k v : string) :
  NoDup (key <$> l) ->
  foldl (fun (m : gmap string string) x => <[key x := val x]> m) m l !! k
  = Some v
  <-> (exists x, x ∈ l /\ key x = k /\ val x = v)
      \/ ((k ∉ key <$> l) /\ m !! k = Some v).
Proof.
  revert m. induction l as [|x l IH]; intros m Hnd.
  - cbn. split.
    + intros Hm. right. split; [apply not_elem_of_nil | exact Hm].
    + intros [(x & Hx & _) | [_ Hm]]; [|exact Hm].
      exfalso. apply (not_elem_of_nil _ Hx).
  - rewrite fmap_cons in Hnd. apply NoDup_cons in Hnd as [Hx Hnd].
    cbn [foldl]. rewrite (IH _ Hnd).
    rewrite fmap_cons. split.
    + intros [(y & Hy & Hk & Hv) | [Hk Hm]].
      * left. exists y. rewrite elem_of_cons. auto.
      * destruct (decide (key x = k)) as [Heq | Hne].
        -- subst k. rewrite lookup_insert_eq in Hm. left. exists x.
           rewrite elem_of_cons. split; [auto|]. split; congruence.
        -- rewrite lookup_insert_ne in Hm by exact Hne. right.
           split; [|exact Hm]. rewrite elem_of_cons. intros [Heq | Hin]; auto.
    + intros [(y & Hy & Hk & Hv) | [Hk Hm]].
      * apply elem_of_cons in Hy as [-> | Hy].
        -- right. subst k v. split; [exact Hx | apply lookup_insert_eq].
        -- left. exists y. auto.
      * right. rewrite elem_of_cons in Hk. split; [tauto|].
        rewrite lookup_insert_ne; [exact Hm | intros Heq; auto].
Qed.

Lemma size_foldl_insert (l : list A) (m : gmap string string) :
  NoDup (key <$> l) ->
  (forall x, x ∈ l -> m !! key x = None) ->
  size (foldl (fun (m : gmap string string) x => <[key x := val x]> m) m l)
  = size m + length l.
Proof.
  revert m. induction l as [|x l IH]; intros m Hnd Hfresh.
  - cbn. lia.
  - rewrite fmap_cons in Hnd. apply NoDup_cons in Hnd as [Hx Hnd].
    cbn [foldl length]. rewrite (IH _ Hnd).
    + rewrite map_size_insert_None; [lia|].
      apply Hfresh. apply elem_of_cons. auto.
    + intros y Hy. rewrite lookup_insert_ne.
      * apply Hfresh. apply elem_of_cons. auto.
      * intros Heq. apply Hx. rewrite Heq. apply list_elem_of_fmap.
        exists y. auto.
Qed.

End Filling.

(** ** Properties of the package *)

(** *** Construction *)

(** C9.  [NewClient] is a plain function: it issues no event and has a
    result for every URL and every credentials, given or not.  The
    client it builds knows exactly one server, the one at the given URL;
    its context selects server index 0, and carries basic-auth data,
    made of the given user name and password, exactly when credentials
    are given. *)
Theorem NewClient_spec (NewConfiguration : pulpclient.Configuration)
    (url : string) (creds : option Credentials) :
  let cl := NewClient NewConfiguration url creds in
  pulpclient.Servers (pulpclient.cfg (client cl))
  = [ {| pulpclient.URL := url |} ]
  /\ context.Value (ctx cl) pulpclient.ContextServerIndex
     = Some (pulpclient.IntValue 0)
  /\ context.Value (ctx cl) pulpclient.ContextBasicAuth
     = match creds with
       | Some c =>
           Some (pulpclient.BasicAuthValue
                   {| pulpclient.UserName := Username c;
                      pulpclient.Password := Password c |})
       | None => None
       end.
Proof.
  destruct creds as [c|]; cbn; repeat split; reflexivity.
Qed.

Import pulpclient.

(** *** Task states *)

(** C1, as the code has it.  [TaskState] fails with a [RemoteError] when
    reading the task fails, fails with an [EmptyStateError] exactly when
    the state that comes back is the empty string (a missing state
    included), and otherwise returns the server's string itself as the
    [TaskState]; so each of the seven known strings yields the constant
    of that name, and the seven constants are pairwise distinct. *)
Theorem TaskState_spec (Quote : string -> string) {W : Type}
    (h : handler W) (w : W) (cl : Client) (task : string) :
  returned (run h (Client.TaskState Quote cl task) w)
  = match answer h (TasksRead (client cl) (ctx cl) task) w with
    | Failed resp err =>
        (EmptyString,
         Some (RemoteError ("error reading task " +:+ task)
                 (Error err) (readBody resp)))
    | Answered res _ =>
        if decide (TaskResponse.GetState res = EmptyString)
        then (EmptyString, Some (EmptyStateError task))
        else (TaskResponse.GetState res, None)
    end
  /\ known_states
     = [ "waiting"; "skipped"; "running"; "completed"; "failed";
         "canceled"; "canceling" ]
  /\ NoDup known_states.
Proof.
  split; [|split].
  - rewrite run_TaskState. cbn [returned].
    destruct (answer h _ _) as [res resp | resp err]; [|reflexivity].
    destruct (decide (TaskResponse.GetState res = EmptyString)) as [He | He].
    + apply is_empty_true in He. rewrite He. reflexivity.
    + apply is_empty_false in He. rewrite He. reflexivity.
  - reflexivity.
  - apply (bool_decide_unpack _). vm_compute. exact I.
Qed.

(** C1, as the specification words it, does not hold: a state outside
    the seven known ones is not answered with an [EmptyStateError]. *)
Lemma TaskState_unrecognized_not_rejected :
  ~ (forall (Quote : string -> string) (W : Type) (h : handler W) (w : W)
       (cl : Client) (task : string) (res : TaskResponse)
       (resp : option http.Response),
        answer h (TasksRead (client cl) (ctx cl) task) w = Answered res resp ->
        TaskResponse.GetState res ∉ known_states ->
        returned (run h (Client.TaskState Quote cl task) w)
        = (EmptyString, Some (EmptyStateError task))).
Proof.
  intros claim.
  specialize (claim Scripted.quote _
                (Scripted.serve (Scripted.up (Some "paused"))) []
                Scripted.local "/pulp/api/v3/tasks/1/"
                {| Task_State := Some "paused" |} Scripted.ok eq_refl).
  assert (Hout : TaskResponse.GetState {| Task_State := Some "paused" |}
                 ∉ known_states).
  { apply (bool_decide_unpack _). vm_compute. exact I. }
  specialize (claim Hout). vm_compute in claim. discriminate claim.
Qed.

(** C10.  A non-empty state string is returned unchanged and without an
    error, whether or not it is one of the seven known states. *)
Theorem TaskState_nonempty_unchanged (Quote : string -> string) {W : Type}
    (h : handler W) (w : W) (cl : Client) (task : string)
    (res : TaskResponse) (resp : option http.Response) :
  answer h (TasksRead (client cl) (ctx cl) task) w = Answered res resp ->
  TaskResponse.GetState res <> EmptyString ->
  returned (run h (Client.TaskState Quote cl task) w)
  = (TaskResponse.GetState res, None).
Proof.
  intros Hanswer Hstate. rewrite run_TaskState. cbn [returned].
  rewrite Hanswer. apply is_empty_false in Hstate. rewrite Hstate.
  reflexivity.
Qed.

Lemma TaskState_nonempty_unchanged_witness :
  ("paused" ∉ known_states)
  /\ returned (run (Scripted.serve (Scripted.up (Some "paused")))
                (Client.TaskState Scripted.quote Scripted.local
                   "/pulp/api/v3/tasks/1/") [])
     = ("paused", None).
Proof.
  split.
  - apply (bool_decide_unpack _). vm_compute. exact I.
  - apply (TaskState_nonempty_unchanged Scripted.quote
             (Scripted.serve (Scripted.up (Some "paused"))) []
             Scripted.local "/pulp/api/v3/tasks/1/"
             {| Task_State := Some "paused" |} Scripted.ok).
    + reflexivity.
    + vm_compute. discriminate.
Defined.

(** C2.  [TaskWaitingOrRunning] answers true exactly when the state
    query succeeds with state waiting or running; for any other state
    it answers false, and when the query fails it answers false as
    well: the result is a boolean, no error leaves the method. *)
Theorem TaskWaitingOrRunning_spec (Quote : string -> string) {W : Type}
    (h : handler W) (w : W) (cl : Client) (task : string) :
  returned (run h (Client.TaskWaitingOrRunning Quote cl task) w)
  = match returned (run h (Client.TaskState Quote cl task) w) with
    | (state, None) =>
        bool_decide (state = TASK_WAITING \/ state = TASK_RUNNING)
    | (_, Some _) => false
    end.
Proof.
  unfold Client.TaskWaitingOrRunning. rewrite run_bind. cbn zeta.
  destruct (returned (run h (Client.TaskState Quote cl task) w))
    as [state [err|]].
  - unfold trigger. cbn [bind]. rewrite run_Vis. reflexivity.
  - cbn [run returned].
    destruct (String.eqb_spec state TASK_RUNNING) as [-> | Hr].
    + reflexivity.
    + destruct (String.eqb_spec state TASK_WAITING) as [-> | Hw].
      * reflexivity.
      * cbn. symmetry. apply bool_decide_eq_false. tauto.
Qed.

(** *** Requests and their payload *)

(** C3.  [ImportCommit] issues one request, the import into the given
    repository, and the archive root named in its payload is "repo"
    whatever the two arguments are. *)
Theorem ImportCommit_archive_root (Quote : string -> string) {W : Type}
    (h : handler W) (w : W) (cl : Client) (commitHref repoHref : string) :
  issued (run h (Client.ImportCommit Quote cl commitHref repoHref) w)
  = [ Call (RepositoriesOstreeOstreeImportAll (client cl) (ctx cl) repoHref
              {| ImportAll_Artifact := commitHref;
                 ImportAll_RepositoryName := "repo" |}) ].
Proof. rewrite run_ImportCommit. reflexivity. Qed.

(** C5.  [CreateOSTreeRepository] issues one request, whose payload has
    the given name.  With the empty description the description of the
    payload is left unset, as in a payload built from the name alone,
    and it is omitted from the body: neither an empty text nor a null.
    With any other description the field is present and holds that
    text. *)
Theorem CreateOSTreeRepository_description (Quote : string -> string)
    {W : Type} (h : handler W) (w : W) (cl : Client)
    (name description : string) :
  let sent :=
    if decide (description = EmptyString) then zeroNullableString
    else NewNullableString (Some description) in
  issued (run h (Client.CreateOSTreeRepository Quote cl name description) w)
  = [ Call (RepositoriesOstreeOstreeCreate (client cl) (ctx cl)
              {| Repository_Name := name;
                 Repository_Description := sent |}) ]
  /\ serialize sent
     = (if decide (description = EmptyString) then Omitted
        else Text description).
Proof.
  rewrite run_CreateOSTreeRepository. cbn [issued].
  destruct (decide (description = EmptyString)) as [-> | Hne].
  - split; reflexivity.
  - apply is_empty_false in Hne. rewrite Hne. split; reflexivity.
Qed.

(** *** Listing repositories *)

(** C4.  When the list request fails, [ListOSTreeRepositories] returns
    a [RemoteError] and the nil map.  When it succeeds with repositories
    of pairwise distinct names, the map returned has as many entries as
    there are repositories, and its entries are exactly the pairs of a
    repository's name and href. *)
Theorem ListOSTreeRepositories_spec (Quote : string -> string) {W : Type}
    (h : handler W) (w : W) (cl : Client) :
  let list := RepositoriesOstreeOstreeList (client cl) (ctx cl) in
  (forall resp err,
      answer h list w = Failed resp err ->
      returned (run h (Client.ListOSTreeRepositories Quote cl) w)
      = (None,
         Some (RemoteError "repository list request returned an error"
                 (Error err) (readBody resp))))
  /\ (forall res resp,
         answer h list w = Answered res resp ->
         let results :=
           PaginatedostreeOstreeRepositoryResponseList.GetResults res in
         NoDup (OstreeOstreeRepositoryResponse.Name <$> results) ->
         exists repos : gmap string string,
           returned (run h (Client.ListOSTreeRepositories Quote cl) w)
           = (Some repos, None)
           /\ size repos = length results
           /\ forall name href,
               repos !! name = Some href
               <-> exists repo,
                   repo ∈ results
                   /\ OstreeOstreeRepositoryResponse.Name repo = name
                   /\ OstreeOstreeRepositoryResponse.GetPulpHref repo = href).
Proof.
  intros list. split.
  - intros resp err Hanswer. rewrite run_ListOSTreeRepositories.
    cbn [returned]. fold list. rewrite Hanswer. reflexivity.
  - intros res resp Hanswer results Hnd. eexists.
    rewrite run_ListOSTreeRepositories. cbn [returned]. fold list.
    rewrite Hanswer. split; [reflexivity|]. fold results. split.
    + rewrite size_foldl_insert.
      * rewrite map_size_empty. reflexivity.
      * exact Hnd.
      * intros x _. apply lookup_empty.
    + intros name href. rewrite lookup_foldl_insert by exact Hnd.
      rewrite lookup_empty. split.
      * intros [Hin | [_ Hempty]]; [exact Hin | discriminate Hempty].
      * intros Hin. left. exact Hin.
Qed.

Lemma ListOSTreeRepositories_spec_witness :
  returned (run (Scripted.serve Scripted.down)
              (Client.ListOSTreeRepositories Scripted.quote Scripted.local)
              [])
  = (None,
     Some (RemoteError "repository list request returned an error"
             "connection refused" EmptyString))
  /\ NoDup (OstreeOstreeRepositoryResponse.Name
              <$> [Scripted.fedora; Scripted.rawhide])
  /\ exists repos : gmap string string,
      returned (run (Scripted.serve (Scripted.up None))
                  (Client.ListOSTreeRepositories Scripted.quote
                     Scripted.local) [])
      = (Some repos, None)
      /\ size repos = 2
      /\ repos !! "fedora-40"
         = Some "/pulp/api/v3/repositories/ostree/ostree/1/".
Proof.
  assert (Hnd : NoDup (OstreeOstreeRepositoryResponse.Name
                         <$> [Scripted.fedora; Scripted.rawhide])).
  { apply (bool_decide_unpack _). vm_compute. exact I. }
  split; [|split; [exact Hnd|]].
  - apply (proj1 (ListOSTreeRepositories_spec Scripted.quote
                    (Scripted.serve Scripted.down) [] Scripted.local)
             None Scripted.gone).
    reflexivity.
  - destruct (proj2 (ListOSTreeRepositories_spec Scripted.quote
                       (Scripted.serve (Scripted.up None)) []
                       Scripted.local)
                {| List_Count := 2;
                   List_Results := [Scripted.fedora; Scripted.rawhide] |}
                Scripted.ok eq_refl Hnd)
      as (repos & Hret & Hsize & Hlookup).
    exists repos. split; [exact Hret|]. split; [exact Hsize|].
    apply Hlookup. exists Scripted.fedora. split; [|split; reflexivity].
    apply elem_of_cons. left. reflexivity.
Defined.

(** *** Uploading a file *)

(** C6, as the code has it.  When the file cannot be opened,
    [UploadFile] returns the [IOError] of [os.Open] as it is and sends
    no request.  When the file opens, the request is sent; if it fails,
    for whatever reason, the result is a [RemoteError], whose message is
    made of the quoted path, the message of the request's error and the
    body of the response (the bytes delivered when there is a response
    and reading it succeeded, nothing otherwise); if it succeeds, the
    result is the href the answer holds (the empty string when it holds
    none). *)
Theorem UploadFile_spec (Quote : string -> string) {W : Type}
    (h : handler W) (w : W) (cl : Client) (path : string) :
  let o := run h (Client.UploadFile Quote cl path) w in
  match answer h (os_Open path) w with
  | inr err =>
      returned o = (EmptyString, Some (IOError err))
      /\ IOError err = PathError err
      /\ issued o = [ Call (os_Open path) ]
      /\ requests o = []
  | inl fp =>
      let create := ArtifactsCreate (client cl) (ctx cl) fp in
      requests o = [ Call create ]
      /\ match answer h create (after h (os_Open path) w) with
         | Failed resp err =>
             let body :=
               match resp with
               | Some {| http.Body := {| http.delivered := b;
                                         http.failure := None |} |} => b
               | _ => EmptyString
               end in
             returned o
             = (EmptyString,
                Some (RemoteError ("failed to upload file " +:+ Quote path)
                        (Error err) body))
             /\ RemoteError ("failed to upload file " +:+ Quote path)
                  (Error err) body
                = errorString
                    ("failed to upload file " +:+ Quote path +:+ ": "
                     +:+ Error err +:+ " (" +:+ body +:+ ")")
         | Answered res _ =>
             returned o
             = (match Artifact_PulpHref res with
                | Some href => href
                | None => EmptyString
                end, None)
         end
  end.
Proof.
  cbn zeta. rewrite run_UploadFile.
  destruct (answer h (os_Open path) w) as [fp | err].
  - cbn zeta. split; [reflexivity|]. cbn [returned].
    destruct (answer h _ _) as [res resp | resp err]; [reflexivity|].
    split.
    + destruct resp as [[[b [e|]]]|]; reflexivity.
    + unfold RemoteError. rewrite !append_assoc. reflexivity.
  - repeat split; reflexivity.
Qed.

(** C6, as the specification words it, does not hold: a file that opens
    and cannot be read is not reported by an [IOError], and the request
    is sent all the same. *)
Lemma UploadFile_unreadable_not_IOError :
  ~ (forall (Quote : string -> string) (W : Type) (h : handler W) (w : W)
       (cl : Client) (path : string),
        cannot_open h w path \/ cannot_read h w cl path ->
        (exists e,
            returned (run h (Client.UploadFile Quote cl path) w)
            = (EmptyString, Some (IOError e)))
        /\ requests (run h (Client.UploadFile Quote cl path) w) = []).
Proof.
  intros claim.
  destruct (claim Scripted.quote _
              (Scripted.serve (Scripted.unreadable "/var/tmp")) []
              Scripted.local "/var/tmp") as [[e Hio] Hnone].
  - right. exists {| os.Fd := 3 |}.
    exists {| os.Op := "read"; os.Path := "/var/tmp";
              os.Err := "is a directory" |}.
    repeat split; reflexivity.
  - vm_compute in Hio. discriminate Hio.
Qed.

(** C7, as the code has it.  When the file opens and the server accepts
    the upload, [UploadFile] returns the href of the answer, whatever it
    is: the text the answer holds, and the empty string when it holds
    none.  The href returned is therefore non-empty exactly when the
    answer carries a non-empty href. *)
Theorem UploadFile_returns_answered_href (Quote : string -> string)
    {W : Type} (h : handler W) (w : W) (cl : Client) (path : string)
    (fp : os.File) (res : ArtifactResponse) (resp : option http.Response) :
  answer h (os_Open path) w = inl fp ->
  answer h (ArtifactsCreate (client cl) (ctx cl) fp)
    (after h (os_Open path) w)
  = Answered res resp ->
  returned (run h (Client.UploadFile Quote cl path) w)
  = (ArtifactResponse.GetPulpHref res, None)
  /\ (ArtifactResponse.GetPulpHref res <> EmptyString
      <-> exists href,
          Artifact_PulpHref res = Some href /\ href <> EmptyString).
Proof.
  intros Hopen Hcreate. split.
  - rewrite run_UploadFile, Hopen. cbn [returned]. rewrite Hcreate.
    reflexivity.
  - unfold ArtifactResponse.GetPulpHref, orZero.
    destruct (Artifact_PulpHref res) as [href|]; split.
    + intros Hne. exists href. split; [reflexivity | exact Hne].
    + intros (href' & [= <-] & Hne). exact Hne.
    + intros Hne. exfalso. apply Hne. reflexivity.
    + intros (href' & Hnone & _). discriminate Hnone.
Qed.

Lemma UploadFile_returns_answered_href_witness :
  returned (run (Scripted.serve (Scripted.up None))
              (Client.UploadFile Scripted.quote Scripted.local
                 "/var/tmp/commit.tar") [])
  = ("/pulp/api/v3/artifacts/1/", None).
Proof.
  apply (UploadFile_returns_answered_href Scripted.quote
           (Scripted.serve (Scripted.up None)) [] Scripted.local
           "/var/tmp/commit.tar" {| os.Fd := 3 |}
           {| Artifact_PulpHref := Some "/pulp/api/v3/artifacts/1/" |}
           Scripted.ok);
    reflexivity.
Defined.

(** C7, as the specification words it, does not hold: a file that opens
    and an upload the server accepts do not make the href non-empty. *)
Lemma UploadFile_href_may_be_empty :
  ~ (forall (Quote : string -> string) (W : Type) (h : handler W) (w : W)
       (cl : Client) (path : string) (fp : os.File)
       (res : ArtifactResponse) (resp : option http.Response),
        answer h (os_Open path) w = inl fp ->
        answer h (ArtifactsCreate (client cl) (ctx cl) fp)
          (after h (os_Open path) w)
        = Answered res resp ->
        fst (returned (run h (Client.UploadFile Quote cl path) w))
        <> EmptyString).
Proof.
  intros claim.
  apply (claim Scripted.quote _ (Scripted.serve Scripted.hrefless) []
           Scripted.local "/var/tmp/commit.tar" {| os.Fd := 3 |}
           {| Artifact_PulpHref := None |} Scripted.ok eq_refl eq_refl).
  reflexivity.
Qed.

(** *** Failed requests *)

(** C8.  [readBody] yields the empty string when there is no response
    and when reading the body fails, even after part of it was
    delivered, and the body otherwise.  Every method that finds its
    request failed returns a [RemoteError] made of the message of the
    error the request reported and of [readBody] of the response: the
    message of the request's error is there whatever became of the
    body. *)
Theorem RemoteError_carries_body (Quote : string -> string) {W : Type}
    (h : handler W) (w : W) (cl : Client) :
  (readBody None = EmptyString
   /\ (forall b e,
          readBody (Some {| http.Body := {| http.delivered := b;
                                            http.failure := Some e |} |})
          = EmptyString)
   /\ (forall b,
          readBody (Some {| http.Body := {| http.delivered := b;
                                            http.failure := None |} |})
          = b))
  /\ (forall path fp resp err,
         answer h (os_Open path) w = inl fp ->
         answer h (ArtifactsCreate (client cl) (ctx cl) fp)
           (after h (os_Open path) w)
         = Failed resp err ->
         snd (returned (run h (Client.UploadFile Quote cl path) w))
         = Some (RemoteError ("failed to upload file " +:+ Quote path)
                   (Error err) (readBody resp)))
  /\ (forall resp err,
         answer h (RepositoriesOstreeOstreeList (client cl) (ctx cl)) w
         = Failed resp err ->
         snd (returned (run h (Client.ListOSTreeRepositories Quote cl) w))
         = Some (RemoteError "repository list request returned an error"
                   (Error err) (readBody resp)))
  /\ (forall name description resp err,
         answer h (RepositoriesOstreeOstreeCreate (client cl) (ctx cl)
                     {| Repository_Name := name;
                        Repository_Description :=
                          if is_empty description then zeroNullableString
                          else NewNullableString (Some description) |}) w
         = Failed resp err ->
         snd (returned (run h (Client.CreateOSTreeRepository Quote cl name
                                 description) w))
         = Some (RemoteError "repository creation failed"
                   (Error err) (readBody resp)))
  /\ (forall commitHref repoHref resp err,
         answer h (RepositoriesOstreeOstreeImportAll (client cl) (ctx cl)
                     repoHref (NewOstreeImportAll commitHref "repo")) w
         = Failed resp err ->
         snd (returned (run h (Client.ImportCommit Quote cl commitHref
                                 repoHref) w))
         = Some (RemoteError "ostree commit import failed"
                   (Error err) (readBody resp)))
  /\ (forall basePath name repoHref resp err,
         answer h (DistributionsOstreeOstreeCreate (client cl) (ctx cl)
                     (SetRepository
                        (NewOstreeOstreeDistribution basePath name)
                        repoHref)) w
         = Failed resp err ->
         snd (returned (run h (Client.DistributeOSTreeRepo Quote cl basePath
                                 name repoHref) w))
         = Some (RemoteError "error distributing ostree repository"
                   (Error err) (readBody resp)))
  /\ (forall task resp err,
         answer h (TasksRead (client cl) (ctx cl) task) w = Failed resp err ->
         snd (returned (run h (Client.TaskState Quote cl task) w))
         = Some (RemoteError ("error reading task " +:+ task)
                   (Error err) (readBody resp))).
Proof.
  split; [repeat split; reflexivity|].
  split; [|split; [|split; [|split; [|split]]]].
  - intros path fp resp err Hopen Hcreate.
    rewrite run_UploadFile, Hopen. cbn [returned]. rewrite Hcreate.
    reflexivity.
  - intros resp err Hanswer. rewrite run_ListOSTreeRepositories.
    cbn [returned]. rewrite Hanswer. reflexivity.
  - intros name description resp err Hanswer.
    rewrite run_CreateOSTreeRepository. cbn [returned].
    rewrite Hanswer. reflexivity.
  - intros commitHref repoHref resp err Hanswer. rewrite run_ImportCommit.
    cbn [returned]. unfold NewOstreeImportAll in Hanswer. rewrite Hanswer.
    reflexivity.
  - intros basePath name repoHref resp err Hanswer.
    rewrite run_DistributeOSTreeRepo. cbn [returned].
    unfold SetRepository, NewOstreeOstreeDistribution in Hanswer.
    cbn in Hanswer. rewrite Hanswer. reflexivity.
  - intros task resp err Hanswer. rewrite run_TaskState. cbn [returned].
    rewrite Hanswer. reflexivity.
Qed.

Lemma RemoteError_carries_body_witness :
  snd (returned (run (Scripted.serve (Scripted.refusing Scripted.whole))
                   (Client.TaskState Scripted.quote Scripted.local
                      "/pulp/api/v3/tasks/1/") []))
  = Some (RemoteError "error reading task /pulp/api/v3/tasks/1/"
            "400 Bad Request" "name already in use")
  /\ snd (returned (run (Scripted.serve (Scripted.refusing Scripted.broken))
                      (Client.UploadFile Scripted.quote Scripted.local
                         "/var/tmp/commit.tar") []))
     = Some (RemoteError
               ("failed to upload file "
                +:+ Scripted.quote "/var/tmp/commit.tar")
               "400 Bad Request" EmptyString).
Proof.
  split.
  - destruct (RemoteError_carries_body Scripted.quote
                (Scripted.serve (Scripted.refusing Scripted.whole)) []
                Scripted.local)
      as (_ & _ & _ & _ & _ & _ & Htask).
    apply (Htask "/pulp/api/v3/tasks/1/"
             (Some {| http.Body := Scripted.whole |})
             (APIError "400 Bad Request")).
    reflexivity.
  - destruct (RemoteError_carries_body Scripted.quote
                (Scripted.serve (Scripted.refusing Scripted.broken)) []
                Scripted.local)
      as (_ & Hupload & _).
    apply (Hupload "/var/tmp/commit.tar" {| os.Fd := 3 |}
             (Some {| http.Body := Scripted.broken |})
             (APIError "400 Bad Request"));
      reflexivity.
Defined.

(** ** More about the methods *)

Lemma run_TaskWaitingOrRunning (Quote : string -> string) {W : Type}
    (h : handler W) (cl : Client) (task : string) (w : W) :
  let o := run h (Client.TaskState Quote cl task) w in
  run h (Client.TaskWaitingOrRunning Quote cl task) w
  = match returned o with
    | (_, Some err) =>
        let line := logrus_Errorf "failed to get task state: %s" [Error err] in
        {| returned := false;
           world := after h line (world o);
           issued := (issued o ++ [Call line])%list |}
    | (state, None) =>
        {| returned :=
             String.eqb state TASK_RUNNING || String.eqb state TASK_WAITING;
           world := world o;
           issued := issued o |}
    end.
Proof.
  cbn zeta. unfold Client.TaskWaitingOrRunning. rewrite run_bind. cbn zeta.
  destruct (returned (run h (Client.TaskState Quote cl task) w))
    as [state [err|]].
  - unfold trigger. cbn [bind]. rewrite run_Vis. reflexivity.
  - cbn [run returned world issued]. rewrite app_nil_r. reflexivity.
Qed.

(** A loop that stores one entry per element, keys repeated or not: a
    key ends up with the value of the last element that bears it. *)
Lemma lookup_foldl_insert_last {A : Type} (key val : A -> string)
    (l : list A) (m : gmap string string) (k : string) :
  foldl (fun (m : gmap string string) x => <[key x := val x]> m) m l !! k
  = match last (val <$> filter (fun x => key x = k) l) with
    | Some v => Some v
    | None => m !! k
    end.
Proof.
  induction l as [|x l IH] using rev_ind.
  - reflexivity.
  - rewrite foldl_app. cbn [foldl]. rewrite filter_app, fmap_app.
    destruct (decide (key x = k)) as [Heq | Hne].
    + rewrite (filter_cons_True _ x []) by exact Heq.
      rewrite filter_nil. cbn [fmap list_fmap]. rewrite last_snoc.
      rewrite <- Heq. apply lookup_insert_eq.
    + rewrite (filter_cons_False _ x []) by exact Hne.
      rewrite filter_nil. cbn [fmap list_fmap]. rewrite app_nil_r.
      rewrite lookup_insert_ne by exact Hne. exact IH.
Qed.

(** *** The file handle *)

(** X1.  [UploadFile] closes the file it opened, once, after the
    request and whatever the request's outcome; when the file does not
    open there is nothing to close and nothing is closed. *)
Theorem UploadFile_closes_file (Quote : string -> string) {W : Type}
    (h : handler W) (w : W) (cl : Client) (path : string) :
  issued (run h (Client.UploadFile Quote cl path) w)
  = match answer h (os_Open path) w with
    | inl fp =>
        [ Call (os_Open path);
          Call (ArtifactsCreate (client cl) (ctx cl) fp);
          Call (File_Close fp) ]
    | inr _ => [ Call (os_Open path) ]
    end.
Proof.
  rewrite run_UploadFile.
  destruct (answer h (os_Open path) w) as [fp | err]; reflexivity.
Qed.

(** X2.  The error [UploadFile] returns is a path error exactly when
    opening the file failed, and then it is the error of [os.Open]
    itself; the error of a rejected upload is never one. *)
Theorem UploadFile_error_kind (Quote : string -> string) {W : Type}
    (h : handler W) (w : W) (cl : Client) (path : string)
    (e : os.PathError) :
  snd (returned (run h (Client.UploadFile Quote cl path) w))
  = Some (PathError e)
  <-> answer h (os_Open path) w = inr e.
Proof.
  rewrite run_UploadFile.
  destruct (answer h (os_Open path) w) as [fp | err].
  - cbn [returned].
    destruct (answer h _ _) as [res resp | resp err]; cbn;
      split; intros H; discriminate H.
  - cbn. unfold IOError. split; intros [= ->]; reflexivity.
Qed.

(** *** One request, through the client *)

(** X3.  Every method sends exactly one request, through the API client
    and with the context of the client it is called on; nothing is sent
    twice, failed or not.  [UploadFile] sends none when the file does
    not open, and [TaskWaitingOrRunning] none beyond the one that reads
    the task. *)
Theorem one_request_through_client (Quote : string -> string) {W : Type}
    (h : handler W) (w : W) (cl : Client) :
  let through := [ Some (client cl, ctx cl) ] in
  (forall path,
      target <$> requests (run h (Client.UploadFile Quote cl path) w)
      = match answer h (os_Open path) w with
        | inl _ => through
        | inr _ => []
        end)
  /\ target <$> requests (run h (Client.ListOSTreeRepositories Quote cl) w)
     = through
  /\ (forall name description,
         target <$> requests (run h (Client.CreateOSTreeRepository Quote cl
                                       name description) w)
         = through)
  /\ (forall commitHref repoHref,
         target <$> requests (run h (Client.ImportCommit Quote cl commitHref
                                       repoHref) w)
         = through)
  /\ (forall basePath name repoHref,
         target <$> requests (run h (Client.DistributeOSTreeRepo Quote cl
                                       basePath name repoHref) w)
         = through)
  /\ (forall task,
         target <$> requests (run h (Client.TaskState Quote cl task) w)
         = through)
  /\ (forall task,
         target <$> requests (run h (Client.TaskWaitingOrRunning Quote cl
                                       task) w)
         = through).
Proof.
  cbn zeta. repeat split.
  - intros path. rewrite run_UploadFile.
    destruct (answer h (os_Open path) w); reflexivity.
  - rewrite run_ListOSTreeRepositories. reflexivity.
  - intros name description. rewrite run_CreateOSTreeRepository. reflexivity.
  - intros commitHref repoHref. rewrite run_ImportCommit. reflexivity.
  - intros basePath name repoHref. rewrite run_DistributeOSTreeRepo.
    reflexivity.
  - intros task. rewrite run_TaskState. reflexivity.
  - intros task. rewrite run_TaskWaitingOrRunning, run_TaskState.
    cbn [returned issued].
    destruct (answer h _ _) as [res resp | resp err];
      [destruct (is_empty (TaskResponse.GetState res))|]; reflexivity.
Qed.

(** X4.  Whatever method is called on a client made by [NewClient],
    its request goes through a client that knows the one server at the
    URL given at construction, with server index 0, and with basic-auth
    data made of the credentials given then; without credentials it
    carries none. *)
Theorem NewClient_requests_endpoint (Quote : string -> string)
    (NewConfiguration : Configuration) (url : string)
    (creds : option Credentials) {W : Type} (h : handler W) (w : W) :
  let cl := NewClient NewConfiguration url creds in
  let auth :=
    match creds with
    | Some (Build_Credentials username password) =>
        Some (BasicAuthValue {| UserName := username;
                                pulpclient.Password := password |})
    | None => None
    end in
  let there := [ Some ([ {| URL := url |} ], Some (IntValue 0), auth) ] in
  (forall path,
      endpoint <$> requests (run h (Client.UploadFile Quote cl path) w)
      = match answer h (os_Open path) w with
        | inl _ => there
        | inr _ => []
        end)
  /\ endpoint <$> requests (run h (Client.ListOSTreeRepositories Quote cl) w)
     = there
  /\ (forall name description,
         endpoint <$> requests (run h (Client.CreateOSTreeRepository Quote cl
                                         name description) w)
         = there)
  /\ (forall commitHref repoHref,
         endpoint <$> requests (run h (Client.ImportCommit Quote cl
                                         commitHref repoHref) w)
         = there)
  /\ (forall basePath name repoHref,
         endpoint <$> requests (run h (Client.DistributeOSTreeRepo Quote cl
                                         basePath name repoHref) w)
         = there)
  /\ (forall task,
         endpoint <$> requests (run h (Client.TaskState Quote cl task) w)
         = there)
  /\ (forall task,
         endpoint <$> requests (run h (Client.TaskWaitingOrRunning Quote cl
                                         task) w)
         = there).
Proof.
  cbn zeta. destruct creds as [[username password]|]; repeat split.
  all: try (intros path; rewrite run_UploadFile;
            destruct (answer h (os_Open path) w); reflexivity).
  all: try (rewrite run_ListOSTreeRepositories; reflexivity).
  all: try (intros name description; rewrite run_CreateOSTreeRepository;
            reflexivity).
  all: try (intros commitHref repoHref; rewrite run_ImportCommit;
            reflexivity).
  all: try (intros basePath name repoHref; rewrite run_DistributeOSTreeRepo;
            reflexivity).
  all: try (intros task; rewrite run_TaskState; reflexivity).
  all: intros task; rewrite run_TaskWaitingOrRunning, run_TaskState;
    cbn [returned issued];
    (destruct (answer h _ _) as [res resp | resp err];
     [destruct (is_empty (TaskResponse.GetState res))|]); reflexivity.
Qed.

(** *** Listing, names repeated or not *)

(** X5.  A successful listing gives a map in which a name is bound to
    the href of the last repository of the answer that bears it, and is
    unbound when no repository does.  The count the server reports plays
    no part, and an empty listing gives an empty map, not the nil
    map. *)
Theorem ListOSTreeRepositories_last_wins (Quote : string -> string)
    {W : Type} (h : handler W) (w : W) (cl : Client)
    (res : PaginatedostreeOstreeRepositoryResponseList)
    (resp : option http.Response) :
  answer h (RepositoriesOstreeOstreeList (client cl) (ctx cl)) w
  = Answered res resp ->
  exists repos : gmap string string,
    returned (run h (Client.ListOSTreeRepositories Quote cl) w)
    = (Some repos, None)
    /\ forall name,
        repos !! name
        = last (OstreeOstreeRepositoryResponse.GetPulpHref
                  <$> filter
                        (fun repo =>
                           OstreeOstreeRepositoryResponse.Name repo = name)
                        (PaginatedostreeOstreeRepositoryResponseList.GetResults
                           res)).
Proof.
  intros Hanswer. eexists. rewrite run_ListOSTreeRepositories.
  cbn [returned]. rewrite Hanswer. split; [reflexivity|].
  intros name. rewrite lookup_foldl_insert_last. rewrite lookup_empty.
  destruct (last _); reflexivity.
Qed.

Lemma ListOSTreeRepositories_last_wins_witness :
  exists repos : gmap string string,
    returned (run (Scripted.serve Scripted.relisting)
                (Client.ListOSTreeRepositories Scripted.quote Scripted.local)
                [])
    = (Some repos, None)
    /\ repos !! "fedora-40"
       = Some "/pulp/api/v3/repositories/ostree/ostree/3/"
    /\ repos !! "rawhide"
       = Some "/pulp/api/v3/repositories/ostree/ostree/2/"
    /\ repos !! "centos" = None.
Proof.
  destruct (ListOSTreeRepositories_last_wins Scripted.quote
              (Scripted.serve Scripted.relisting) [] Scripted.local
              {| List_Count := 7;
                 List_Results := [Scripted.fedora; Scripted.rawhide;
                                  Scripted.fedora_again] |}
              Scripted.ok eq_refl)
    as (repos & Hret & Hlookup).
  exists repos. split; [exact Hret|].
  rewrite !Hlookup. repeat split; reflexivity.
Defined.

(** X6.  [ListOSTreeRepositories] returns the nil map exactly when it
    returns an error. *)
Theorem ListOSTreeRepositories_nil_iff_error (Quote : string -> string)
    {W : Type} (h : handler W) (w : W) (cl : Client) :
  let r := returned (run h (Client.ListOSTreeRepositories Quote cl) w) in
  fst r = None <-> snd r <> None.
Proof.
  cbn zeta. rewrite run_ListOSTreeRepositories. cbn [returned].
  destruct (answer h _ _) as [res resp | resp err]; cbn; split; congruence.
Qed.

(** *** Results and errors *)

(** X7.  [TaskState] returns no error exactly when the state it returns
    is non-empty: a state that comes with a nil error is never the empty
    string, and a result that comes with an error is always the empty
    string. *)
Theorem TaskState_error_iff_empty (Quote : string -> string) {W : Type}
    (h : handler W) (w : W) (cl : Client) (task : string) :
  let r := returned (run h (Client.TaskState Quote cl task) w) in
  snd r = None <-> fst r <> EmptyString.
Proof.
  cbn zeta. rewrite run_TaskState. cbn [returned].
  destruct (answer h _ _) as [res resp | resp err].
  - destruct (is_empty (TaskResponse.GetState res)) eqn:He; cbn.
    + split; [discriminate | intros H; exfalso; apply H; reflexivity].
    + apply is_empty_false in He. split; [intros _; exact He | reflexivity].
  - cbn. split; [discriminate | intros H; exfalso; apply H; reflexivity].
Qed.

(** X8.  Whenever one of the methods that return an href or a task
    handle returns an error, the string that comes with it is empty. *)
Theorem error_comes_with_empty_string (Quote : string -> string) {W : Type}
    (h : handler W) (w : W) (cl : Client) :
  let blank (r : string * option error) :=
    snd r <> None -> fst r = EmptyString in
  (forall path, blank (returned (run h (Client.UploadFile Quote cl path) w)))
  /\ (forall name description,
         blank (returned (run h (Client.CreateOSTreeRepository Quote cl name
                                   description) w)))
  /\ (forall commitHref repoHref,
         blank (returned (run h (Client.ImportCommit Quote cl commitHref
                                   repoHref) w)))
  /\ (forall basePath name repoHref,
         blank (returned (run h (Client.DistributeOSTreeRepo Quote cl
                                   basePath name repoHref) w))).
Proof.
  cbn zeta. repeat split.
  - intros path. rewrite run_UploadFile.
    destruct (answer h (os_Open path) w) as [fp | err]; [|reflexivity].
    cbn [returned].
    destruct (answer h _ _) as [res resp | resp err]; cbn; congruence.
  - intros name description. rewrite run_CreateOSTreeRepository.
    cbn [returned].
    destruct (answer h _ _) as [res resp | resp err]; cbn; congruence.
  - intros commitHref repoHref. rewrite run_ImportCommit. cbn [returned].
    destruct (answer h _ _) as [res resp | resp err]; cbn; congruence.
  - intros basePath name repoHref. rewrite run_DistributeOSTreeRepo.
    cbn [returned].
    destruct (answer h _ _) as [res resp | resp err]; cbn; congruence.
Qed.

Lemma error_comes_with_empty_string_witness :
  snd (returned (run (Scripted.serve (Scripted.refusing Scripted.whole))
                   (Client.ImportCommit Scripted.quote Scripted.local
                      "/pulp/api/v3/artifacts/1/"
                      "/pulp/api/v3/repositories/ostree/ostree/1/") []))
  <> None
  /\ fst (returned (run (Scripted.serve (Scripted.refusing Scripted.whole))
                      (Client.ImportCommit Scripted.quote Scripted.local
                         "/pulp/api/v3/artifacts/1/"
                         "/pulp/api/v3/repositories/ostree/ostree/1/") []))
     = EmptyString.
Proof.
  assert (Herr :
    snd (returned (run (Scripted.serve (Scripted.refusing Scripted.whole))
                     (Client.ImportCommit Scripted.quote Scripted.local
                        "/pulp/api/v3/artifacts/1/"
                        "/pulp/api/v3/repositories/ostree/ostree/1/") []))
    <> None).
  { vm_compute. discriminate. }
  split; [exact Herr|].
  destruct (error_comes_with_empty_string Scripted.quote
              (Scripted.serve (Scripted.refusing Scripted.whole)) []
              Scripted.local)
    as (_ & _ & Himport & _).
  apply Himport. exact Herr.
Defined.

(** X9.  [TaskWaitingOrRunning] reads the task once and then logs one
    error line, made of the message of the error [TaskState] returned,
    when there is such an error; it logs nothing when there is none. *)
Theorem TaskWaitingOrRunning_logs_failure (Quote : string -> string)
    {W : Type} (h : handler W) (w : W) (cl : Client) (task : string) :
  issued (run h (Client.TaskWaitingOrRunning Quote cl task) w)
  = Call (TasksRead (client cl) (ctx cl) task)
    :: match snd (returned (run h (Client.TaskState Quote cl task) w)) with
       | Some err =>
           [ Call (logrus_Errorf "failed to get task state: %s"
                     [Error err]) ]
       | None => []
       end.
Proof.
  rewrite run_TaskWaitingOrRunning. cbn zeta.
  destruct (returned (run h (Client.TaskState Quote cl task) w))
    as [state [err|]] eqn:Hret;
    rewrite run_TaskState; reflexivity.
Qed.

(** X10.  [DistributeOSTreeRepo] sends one request whose payload holds
    the base path and the name as given and binds the repository to the
    given href; unlike the description of a new repository, the
    repository is present in the body even when the href is empty.  When
    the request succeeds the task handle of the answer is returned as it
    is; when it fails, a [RemoteError]. *)
Theorem DistributeOSTreeRepo_spec (Quote : string -> string) {W : Type}
    (h : handler W) (w : W) (cl : Client) (basePath name repoHref : string) :
  let body :=
    {| Distribution_BasePath := basePath;
       Distribution_Name := name;
       Distribution_Repository := NewNullableString (Some repoHref) |} in
  let create := DistributionsOstreeOstreeCreate (client cl) (ctx cl) body in
  let o :=
    run h (Client.DistributeOSTreeRepo Quote cl basePath name repoHref) w in
  issued o = [ Call create ]
  /\ serialize (Distribution_Repository body) = Text repoHref
  /\ returned o
     = match answer h create w with
       | Failed resp err =>
           (EmptyString,
            Some (RemoteError "error distributing ostree repository"
                    (Error err) (readBody resp)))
       | Answered res _ => (Task res, None)
       end.
Proof.
  cbn zeta. rewrite run_DistributeOSTreeRepo. repeat split; reflexivity.
Qed.

(** X11.  When the import request succeeds, [ImportCommit] returns the
    task handle of the answer as it is, empty or not, and no error. *)
Theorem ImportCommit_returns_task (Quote : string -> string) {W : Type}
    (h : handler W) (w : W) (cl : Client) (commitHref repoHref : string)
    (result : AsyncOperationResponse) (resp : option http.Response) :
  answer h (RepositoriesOstreeOstreeImportAll (client cl) (ctx cl) repoHref
              (NewOstreeImportAll commitHref "repo")) w
  = Answered result resp ->
  returned (run h (Client.ImportCommit Quote cl commitHref repoHref) w)
  = (Task result, None).
Proof.
  intros Hanswer. rewrite run_ImportCommit. cbn [returned].
  unfold NewOstreeImportAll in Hanswer. rewrite Hanswer. reflexivity.
Qed.

Lemma ImportCommit_returns_task_witness :
  returned (run (Scripted.serve (Scripted.up None))
              (Client.ImportCommit Scripted.quote Scripted.local
                 "/pulp/api/v3/artifacts/1/"
                 "/pulp/api/v3/repositories/ostree/ostree/1/") [])
  = ("/pulp/api/v3/tasks/1/", None).
Proof.
  apply (ImportCommit_returns_task Scripted.quote
           (Scripted.serve (Scripted.up None)) [] Scripted.local
           "/pulp/api/v3/artifacts/1/"
           "/pulp/api/v3/repositories/ostree/ostree/1/"
           {| Task := "/pulp/api/v3/tasks/1/" |} Scripted.ok).
  reflexivity.
Defined.

(** X12.  When the creation request succeeds, [CreateOSTreeRepository]
    returns the href of the repository in the answer, the empty string
    if the answer holds none, and no error; it does not look at the
    name or the description the answer reports. *)
Theorem CreateOSTreeRepository_returns_href (Quote : string -> string)
    {W : Type} (h : handler W) (w : W) (cl : Client)
    (name description : string)
    (result : OstreeOstreeRepositoryResponse)
    (resp : option http.Response) :
  answer h (RepositoriesOstreeOstreeCreate (client cl) (ctx cl)
              {| Repository_Name := name;
                 Repository_Description :=
                   if is_empty description then zeroNullableString
                   else NewNullableString (Some description) |}) w
  = Answered result resp ->
  returned (run h (Client.CreateOSTreeRepository Quote cl name description) w)
  = (match RepositoryResponse_PulpHref result with
     | Some href => href
     | None => EmptyString
     end, None).
Proof.
  intros Hanswer. rewrite run_CreateOSTreeRepository. cbn [returned].
  rewrite Hanswer. reflexivity.
Qed.

Lemma CreateOSTreeRepository_returns_href_witness :
  returned (run (Scripted.serve (Scripted.up None))
              (Client.CreateOSTreeRepository Scripted.quote Scripted.local
                 "fedora-40" EmptyString) [])
  = ("/pulp/api/v3/repositories/ostree/ostree/1/", None).
Proof.
  apply (CreateOSTreeRepository_returns_href Scripted.quote
           (Scripted.serve (Scripted.up None)) [] Scripted.local
           "fedora-40" EmptyString Scripted.fedora Scripted.ok).
  reflexivity.
Defined.
